(** * The restaurant schema (convex/schema.ts) and its users-table helpers

    A shallow embedding of the declarative Convex schema and of the helper
    functions that the users-table property tests exercise: [validateRole],
    [createUserRecord], [createBranchRecord] and [tryModifyCreationTime].

    JavaScript values are an inductive type; an object is a finite map from
    property names to values; the two effects of the helpers, [Date.now()]
    and [Math.random()], read a world that is threaded through the calls. *)

From Stdlib Require Import ZArith String Ascii List Lia.
From stdpp Require Import gmap strings pretty list fin_maps.

Set Warnings "-register-all".
Local Open Scope Z_scope.
Local Open Scope string_scope.

(** ** JavaScript values *)

Module Js.

(** Strings are sequences of code units (one [ascii] per unit); numbers
    are the integral ones the helpers produce and the tests feed
    ([Date.now()] readings, [fc.integer()] samples).  The one fractional
    number of the program, the draw of [Math.random()], is only ever looked
    at through its base-36 rendering, which the world supplies. *)
Inductive JsValue : Type :=
  | JUndefined
  | JNull
  | JBool (b : bool)
  | JNum (n : Z)
  | JStr (s : string)
  | JObj (o : gmap string JsValue)
  | JArr (xs : list JsValue).

(** An object: its own properties. *)
Abbreviation JsObject := (gmap string JsValue).

(** The [typeof] operator. *)
Definition typeof (v : JsValue) : string :=
  match v with
  | JUndefined => "undefined"
  | JNull => "object"
  | JBool _ => "boolean"
  | JNum _ => "number"
  | JStr _ => "string"
  | JObj _ => "object"
  | JArr _ => "object"
  end.

(** [xs.includes(v)] for an array [xs] of strings: SameValueZero of a
    string with a string is equality of the code units, and a string is
    the same value as no value of another type. *)
Definition includes (xs : list string) (v : JsValue) : bool :=
  match v with
  | JStr s => existsb (String.eqb s) xs
  | _ => false
  end.

(** [s.substr(start, len)]: the [len] units from [start], fewer when the
    string ends earlier, none when [start] is past the end. *)
Definition substr (start len : nat) (s : string) : string :=
  String.substring start len s.

(** Reading a property, [o.k]: [undefined] when [o] has no such
    property. *)
Definition get (o : JsObject) (k : string) : JsValue :=
  default JUndefined (o !! k).

(** [String(v)]. *)
Fixpoint to_String (v : JsValue) : string :=
  match v with
  | JUndefined => "undefined"
  | JNull => "null"
  | JBool true => "true"
  | JBool false => "false"
  | JNum n => pretty n
  | JStr s => s
  | JObj _ => "[object Object]"
  | JArr xs =>
      let elt x :=
        match x with
        | JUndefined | JNull => ""
        | _ => to_String x
        end in
      String.concat "," (map elt xs)
  end.

(** How the evaluation of a block ends: normally with a value, or
    abruptly with a thrown one. *)
Inductive Completion (A : Type) : Type :=
  | Normal (a : A)
  | Throw (e : JsValue).
Arguments Normal {A} a.
Arguments Throw {A} e.

(** [try { body } catch (error) { handler }], both returning. *)
Definition try_catch {A : Type} (body : Completion A) (handler : JsValue -> A) : A :=
  match body with
  | Normal a => a
  | Throw e => handler e
  end.

End Js.
Import Js.

(** ** The users-table test helpers *)

(** [const VALID_ROLES = ["customer", "staff", "admin"] as const]. *)
Definition VALID_ROLES : list string := ["customer"; "staff"; "admin"].

(** The result of [validateRole]: [{ isValid: boolean; error?: string }]. *)
Record RoleValidation : Type := mkRoleValidation {
  isValid : bool;
  error : option string
}.

(** [validateRole(role)]. *)
Definition validateRole (role : JsValue) : RoleValidation :=
  try_catch
    (if negb (String.eqb (typeof role) "string") then
       Normal (mkRoleValidation false (Some "Role must be a string"))
     else if negb (includes VALID_ROLES role) then
       Normal (mkRoleValidation false (Some ("Invalid role: " +:+ to_String role)))
     else
       Normal (mkRoleValidation true None))
    (fun e => mkRoleValidation false (Some (to_String e))).

(** *** The world the helpers read

    [Date.now()] and [Math.random()] are the two effects of the helpers.
    The world holds what the clock shows at each successive reading and what
    each successive draw renders to, with the number of readings and draws
    made so far.  The rendering of a double in base 36 is left to the
    engine, so the world gives [Math.random().toString(36)] as a whole. *)
Record World : Type := mkWorld {
  clock : nat -> Z;
  ticks : nat;
  draws : nat -> string;
  drawn : nat
}.

(** A computation that reads and advances the world. *)
Definition Eff (A : Type) : Type := World -> A * World.

Definition ret {A : Type} (a : A) : Eff A := fun w => (a, w).

Definition bind {A B : Type} (m : Eff A) (k : A -> Eff B) : Eff B :=
  fun w => let (a, w') := m w in k a w'.

Notation "x <- m ;; k" := (bind m (fun x => k))
  (at level 100, m at next level, right associativity).

(** [Date.now()]. *)
Definition Date_now : Eff Z :=
  fun w => (clock w (ticks w), mkWorld (clock w) (S (ticks w)) (draws w) (drawn w)).

(** [Math.random().toString(36)]. *)
Definition Math_random_toString36 : Eff string :=
  fun w => (draws w (drawn w), mkWorld (clock w) (ticks w) (draws w) (S (drawn w))).

(** [createUserRecord(data)]: the object literal
    [{ ...data, _creationTime: Date.now(), _id: `user_${...substr(2, 9)}` }],
    its property values evaluated in the order written. *)
Definition createUserRecord (data : JsObject) : Eff JsObject :=
  t <- Date_now ;;
  r <- Math_random_toString36 ;;
  ret (<["_id" := JStr ("user_" +:+ substr 2 9 r)]>
         (<["_creationTime" := JNum t]> data)).

(** [createBranchRecord(data)]. *)
Definition createBranchRecord (data : JsObject) : Eff JsObject :=
  t <- Date_now ;;
  r <- Math_random_toString36 ;;
  ret (<["_id" := JStr ("branch_" +:+ substr 2 9 r)]>
         (<["_creationTime" := JNum t]> data)).

(** The world after one creation: one reading and one draw further. *)
Definition after_creation (w : World) : World :=
  mkWorld (clock w) (S (ticks w)) (draws w) (S (drawn w)).

(** A clock that never shows less at a later reading. *)
Definition monotone_clock (w : World) : Prop :=
  forall i j : nat, (i <= j)%nat -> clock w i <= clock w j.

(** The result of [tryModifyCreationTime]: [{ success: boolean }]. *)
Record Modification : Type := mkModification { success : bool }.

(** [tryModifyCreationTime(record, newTime)].  [record] is passed by
    reference; the second component is the object as the call leaves it.
    The body assigns to none of its properties. *)
Definition tryModifyCreationTime (record : JsObject) (newTime : Z)
  : Modification * JsObject :=
  (try_catch (Normal (mkModification false)) (fun _ => mkModification false),
   record).

(** The timestamp tests' bracket:
    [timeBefore = Date.now(); x = create(...); timeAfter = Date.now()]. *)
Definition bracketed {A : Type} (create : Eff A) : Eff (Z * A * Z) :=
  timeBefore <- Date_now ;;
  x <- create ;;
  timeAfter <- Date_now ;;
  ret (timeBefore, x, timeAfter).

(** The records that creating users from [ds], one after the other,
    returns. *)
Fixpoint createUserRecords (ds : list JsObject) : Eff (list JsObject) :=
  match ds with
  | [] => ret []
  | d :: ds' =>
      r <- createUserRecord d ;;
      rs <- createUserRecords ds' ;;
      ret (r :: rs)
  end.

(** ** The schema *)

Module Schema.

(** The validators of [convex/values] that the schema uses. *)
Inductive Validator : Type :=
  | v_string
  | v_number
  | v_boolean
  | v_literal (s : string)
  | v_id (tableName : string)
  | v_optional (v : Validator)
  | v_union (vs : list Validator)
  | v_array (v : Validator)
  | v_object (fs : list (string * Validator)).

(** A table definition: the declared fields, and the indexes in the order
    of their declaration, each a name with its tuple of key fields. *)
Record TableDefinition : Type := mkTable {
  fields : list (string * Validator);
  indexes : list (string * list string)
}.

(** [defineTable({...})]. *)
Definition defineTable (fs : list (string * Validator)) : TableDefinition :=
  mkTable fs [].

(** [.index(name, keys)]. *)
Definition index (name : string) (keys : list string) (t : TableDefinition)
  : TableDefinition :=
  mkTable (fields t) (indexes t ++ [(name, keys)]).

Notation "t |> f" := (f t) (at level 45, left associativity, only parsing).

Definition users : TableDefinition :=
  defineTable [
    ("clerkId", v_string);
    ("email", v_string);
    ("name", v_optional v_string);
    ("role", v_union [v_literal "customer"; v_literal "staff"; v_literal "admin"]);
    ("phoneNumber", v_optional v_string)
  ]
  |> index "by_clerkId" ["clerkId"]
  |> index "by_email" ["email"].

Definition branches : TableDefinition :=
  defineTable [
    ("name", v_string);
    ("address", v_string);
    ("city", v_string);
    ("state", v_string);
    ("zipCode", v_string);
    ("phoneNumber", v_string);
    ("email", v_optional v_string);
    ("isActive", v_boolean)
  ]
  |> index "by_isActive" ["isActive"].

Definition categories : TableDefinition :=
  defineTable [
    ("name", v_string);
    ("description", v_optional v_string);
    ("displayOrder", v_optional v_number);
    ("isActive", v_boolean)
  ]
  |> index "by_isActive" ["isActive"]
  |> index "by_displayOrder" ["displayOrder"].

Definition menuItems : TableDefinition :=
  defineTable [
    ("categoryId", v_id "categories");
    ("branchId", v_optional (v_id "branches"));
    ("name", v_string);
    ("description", v_optional v_string);
    ("price", v_number);
    ("imageUrl", v_optional v_string);
    ("isAvailable", v_boolean);
    ("preparationTime", v_optional v_number)
  ]
  |> index "by_categoryId" ["categoryId"]
  |> index "by_branchId" ["branchId"]
  |> index "by_isAvailable_categoryId" ["isAvailable"; "categoryId"].

Definition tables : TableDefinition :=
  defineTable [
    ("branchId", v_id "branches");
    ("tableNumber", v_string);
    ("capacity", v_number);
    ("status", v_union [
       v_literal "available";
       v_literal "occupied";
       v_literal "reserved"
     ])
  ]
  |> index "by_branchId" ["branchId"]
  |> index "by_branchId_status" ["branchId"; "status"]
  |> index "by_branchId_tableNumber" ["branchId"; "tableNumber"].

Definition orders : TableDefinition :=
  defineTable [
    ("userId", v_id "users");
    ("branchId", v_id "branches");
    ("tableId", v_optional (v_id "tables"));
    ("orderNumber", v_string);
    ("orderType", v_union [
       v_literal "dine-in";
       v_literal "takeout";
       v_literal "delivery"
     ]);
    ("status", v_union [
       v_literal "pending";
       v_literal "confirmed";
       v_literal "preparing";
       v_literal "ready";
       v_literal "completed";
       v_literal "cancelled"
     ]);
    ("totalAmount", v_number);
    ("notes", v_optional v_string)
  ]
  |> index "by_orderNumber" ["orderNumber"]
  |> index "by_userId" ["userId"]
  |> index "by_branchId" ["branchId"]
  |> index "by_status" ["status"]
  |> index "by_branchId_status" ["branchId"; "status"].

Definition orderItems : TableDefinition :=
  defineTable [
    ("orderId", v_id "orders");
    ("menuItemId", v_id "menuItems");
    ("quantity", v_number);
    ("priceAtOrder", v_number);
    ("subtotal", v_number);
    ("specialInstructions", v_optional v_string)
  ]
  |> index "by_orderId" ["orderId"]
  |> index "by_menuItemId" ["menuItemId"].

Definition payments : TableDefinition :=
  defineTable [
    ("orderId", v_id "orders");
    ("stripePaymentIntentId", v_optional v_string);
    ("amount", v_number);
    ("status", v_union [
       v_literal "pending";
       v_literal "succeeded";
       v_literal "failed";
       v_literal "refunded"
     ]);
    ("paymentMethod", v_union [
       v_literal "card";
       v_literal "cash";
       v_literal "other"
     ]);
    ("transactionDate", v_optional v_number)
  ]
  |> index "by_orderId" ["orderId"]
  |> index "by_stripePaymentIntentId" ["stripePaymentIntentId"]
  |> index "by_status" ["status"].

Definition analytics : TableDefinition :=
  defineTable [
    ("branchId", v_optional (v_id "branches"));
    ("periodStart", v_number);
    ("periodEnd", v_number);
    ("totalRevenue", v_number);
    ("orderCount", v_number);
    ("customerCount", v_number);
    ("averageOrderValue", v_number);
    ("topMenuItems", v_optional (v_array (v_object [
       ("menuItemId", v_id "menuItems");
       ("name", v_string);
       ("orderCount", v_number);
       ("revenue", v_number)
     ])))
  ]
  |> index "by_branchId" ["branchId"]
  |> index "by_branchId_periodStart" ["branchId"; "periodStart"]
  |> index "by_periodStart_periodEnd" ["periodStart"; "periodEnd"].

(** [defineSchema({...})]: the tables by name, in the order written. *)
Definition defineSchema (ts : list (string * TableDefinition))
  : list (string * TableDefinition) := ts.

Definition schema : list (string * TableDefinition) :=
  defineSchema [
    ("users", users);
    ("branches", branches);
    ("categories", categories);
    ("menuItems", menuItems);
    ("tables", tables);
    ("orders", orders);
    ("orderItems", orderItems);
    ("payments", payments);
    ("analytics", analytics)
  ].

(** The names of the fields a table declares. *)
Definition field_names (t : TableDefinition) : list string :=
  map fst (fields t).

(** The validator a table declares for a field. *)
Definition field (t : TableDefinition) (k : string) : option Validator :=
  snd <$> List.find (fun f => String.eqb (fst f) k) (fields t).

(** Every declared index of a schema as collection with key tuple, in the
    order of declaration. *)
Definition declared_indexes (s : list (string * TableDefinition))
  : list (string * list string) :=
  flat_map (fun nt => map (fun ix => (fst nt, snd ix)) (indexes (snd nt))) s.

End Schema.

(** The fields of the parameter types of the two creation helpers,
    [{ clerkId; email; role; name?; phoneNumber? }] and
    [{ name; address; city; state; zipCode; phoneNumber; email?; isActive }]. *)
Definition UserData_fields : list string :=
  ["clerkId"; "email"; "role"; "name"; "phoneNumber"].

Definition BranchData_fields : list string :=
  ["name"; "address"; "city"; "state"; "zipCode"; "phoneNumber"; "email"; "isActive"].

(** ** Sample inputs *)

Module Sample.

(** A clock that advances by one millisecond from reading to reading; the
    draws 0.5 and then 0.25, which render in base 36 as "0.i" and "0.9". *)
Definition world : World :=
  mkWorld (fun k => 1700000000000 + Z.of_nat k) 0
          (fun k => match k with O => "0.i" | S _ => "0.9" end) 0.

(** A world whose first two draws are both 0.5. *)
Definition world_equal_draws : World :=
  mkWorld (fun k => 1700000000000 + Z.of_nat k) 0 (fun _ => "0.i") 0.

(** [{ clerkId: "u1", email: "a@b.com", role: "customer" }]. *)
Definition u1 : JsObject :=
  <["clerkId" := JStr "u1"]>
    (<["email" := JStr "a@b.com"]> (<["role" := JStr "customer"]> ∅)).

(** [{ clerkId: "u1", email: "c@d.com", role: "staff", name: "Ann" }]. *)
Definition u1_again : JsObject :=
  <["clerkId" := JStr "u1"]>
    (<["email" := JStr "c@d.com"]>
       (<["role" := JStr "staff"]> (<["name" := JStr "Ann"]> ∅))).

(** A branch without the optional [email]. *)
Definition b1 : JsObject :=
  <["name" := JStr "Main"]>
    (<["address" := JStr "1 High St"]>
       (<["city" := JStr "Austin"]>
          (<["state" := JStr "TX"]>
             (<["zipCode" := JStr "78701"]>
                (<["phoneNumber" := JStr "555-0100"]>
                   (<["isActive" := JBool true]> ∅)))))).

(** Two tables of one branch, numbered "1" and "01". *)
Definition table_1 : JsObject :=
  <["branchId" := JStr "branch_i"]>
    (<["tableNumber" := JStr "1"]>
       (<["capacity" := JNum 4]> (<["status" := JStr "available"]> ∅))).

Definition table_01 : JsObject :=
  <["branchId" := JStr "branch_i"]>
    (<["tableNumber" := JStr "01"]>
       (<["capacity" := JNum 4]> (<["status" := JStr "available"]> ∅))).

(** A table whose number is the number 1. *)
Definition table_numeric : JsObject :=
  <["branchId" := JStr "branch_i"]>
    (<["tableNumber" := JNum 1]>
       (<["capacity" := JNum 4]> (<["status" := JStr "available"]> ∅))).

End Sample.

(** [const userRoleValidator = v.union(v.literal("customer"), ...)]. *)
Definition userRoleValidator : Schema.Validator :=
  Schema.v_union
    [Schema.v_literal "customer"; Schema.v_literal "staff"; Schema.v_literal "admin"].

(** ** What the specification measures the schema against *)

Module Contract.
Import Schema.

(** The index catalogue of the specification's section 6, collection with
    index key tuple, as listed there. *)
Definition catalogue : list (string * list string) := [
  ("users", ["clerkId"]);
  ("users", ["email"]);
  ("branches", ["isActive"]);
  ("categories", ["isActive"]);
  ("categories", ["displayOrder"]);
  ("menuItems", ["categoryId"]);
  ("menuItems", ["branchId"]);
  ("menuItems", ["isAvailable"; "categoryId"]);
  ("tables", ["branchId"]);
  ("tables", ["branchId"; "status"]);
  ("tables", ["branchId"; "tableNumber"]);
  ("orders", ["orderNumber"]);
  ("orders", ["userId"]);
  ("orders", ["branchId"]);
  ("orders", ["status"]);
  ("orders", ["branchId"; "status"]);
  ("orderItems", ["orderId"]);
  ("orderItems", ["menuItemId"]);
  ("payments", ["orderId"]);
  ("payments", ["stripePaymentIntentId"]);
  ("payments", ["status"]);
  ("analytics", ["branchId"]);
  ("analytics", ["branchId"; "periodStart"]);
  ("analytics", ["periodStart"; "periodEnd"])
].

(** The Payment row of the specification's data model: the names of the
    fields it lists. *)
Definition payment_fields_listed : list string :=
  ["orderId"; "stripePaymentIntentId"; "amount"; "paymentMethod"; "status"].

Definition is_optional (v : Validator) : bool :=
  match v with
  | v_optional _ => true
  | _ => false
  end.

(** Modelled from the spec: the check of a value against a validator,
    which [convex/values] performs and this source only declares.  A value
    matches its declared semantic type: string, number, boolean; an
    enumerated field is a string equal to one of the declared literals; a
    reference is an identifier, which the helpers make strings; an array
    matches when its elements do; an object when each declared field
    matches, an optional one being allowed to be absent.  Nothing is said
    of properties that are not declared, and nothing is checked of them. *)
Fixpoint conforms (v : Validator) (x : JsValue) {struct v} : bool :=
  match v with
  | v_string => match x with JStr _ => true | _ => false end
  | v_number => match x with JNum _ => true | _ => false end
  | v_boolean => match x with JBool _ => true | _ => false end
  | v_literal s => match x with JStr s' => String.eqb s s' | _ => false end
  | v_id _ => match x with JStr _ => true | _ => false end
  | v_optional v' => conforms v' x
  | v_union vs => existsb (fun v' => conforms v' x) vs
  | v_array v' =>
      match x with
      | JArr xs => forallb (conforms v') xs
      | _ => false
      end
  | v_object fs =>
      match x with
      | JObj o =>
          forallb (fun f =>
                     match o !! fst f with
                     | Some y => conforms (snd f) y
                     | None => is_optional (snd f)
                     end) fs
      | _ => false
      end
  end.

(** A document conforms to a table when it matches the object of the
    table's declared fields. *)
Definition conforms_table (t : TableDefinition) (doc : JsObject) : bool :=
  conforms (v_object (fields t)) (JObj doc).

(** The key tuple of a named index of a table. *)
Definition index_keys (t : TableDefinition) (name : string) : option (list string) :=
  snd <$> List.find (fun ix => String.eqb (fst ix) name) (indexes t).

(** The key of a document under a tuple of key fields: the values of
    those fields, in the order of the tuple. *)
Definition index_key (keys : list string) (doc : JsObject) : list (option JsValue) :=
  map (fun k => doc !! k) keys.

(** No two records of a store have the same key under [keys]. *)
Definition unique_on (keys : list string) (store : list JsObject) : Prop :=
  forall (i j : nat) (d1 d2 : JsObject),
    store !! i = Some d1 -> store !! j = Some d2 ->
    index_key keys d1 = index_key keys d2 -> i = j.

End Contract.
Import Contract.

(** ** The callbacks of the timestamp tests *)

(** An argument drawn by [fc.option(..., { nil: undefined })]: a string, or
    [undefined]. *)
Definition optional_arg (o : option string) : JsValue :=
  match o with
  | Some s => JStr s
  | None => JUndefined
  end.

(** The object [{ clerkId, email, role, name, phoneNumber }] that the first
    timestamp test passes to [createUserRecord]: all five properties are
    written, the optional ones holding [undefined] when not drawn. *)
Definition user_literal (clerkId email role : string) (name phoneNumber : option string)
  : JsObject :=
  <["phoneNumber" := optional_arg phoneNumber]>
    (<["name" := optional_arg name]>
       (<["role" := JStr role]>
          (<["email" := JStr email]> (<["clerkId" := JStr clerkId]> ∅)))).

(** The object [{ clerkId, email, role }] of the immutability test. *)
Definition user_literal_required (clerkId email role : string) : JsObject :=
  <["role" := JStr role]>
    (<["email" := JStr email]> (<["clerkId" := JStr clerkId]> ∅)).

(** The object
    [{ name, address, city, state, zipCode, phoneNumber, email, isActive }]
    of the second timestamp test. *)
Definition branch_literal (name address city state zipCode phoneNumber : string)
  (email : option string) (isActive : bool) : JsObject :=
  <["isActive" := JBool isActive]>
    (<["email" := optional_arg email]>
       (<["phoneNumber" := JStr phoneNumber]>
          (<["zipCode" := JStr zipCode]>
             (<["state" := JStr state]>
                (<["city" := JStr city]>
                   (<["address" := JStr address]>
                      (<["name" := JStr name]> ∅))))))).

(** [expect(v).toBeDefined()] holds of every value but [undefined]. *)
Definition toBeDefined (v : JsValue) : bool :=
  match v with
  | JUndefined => false
  | _ => true
  end.

(** [expect(v).toBeGreaterThanOrEqual(n)] and
    [expect(v).toBeLessThanOrEqual(n)]: [v] has to be a number. *)
Definition toBeGreaterThanOrEqual (v : JsValue) (n : Z) : bool :=
  match v with
  | JNum x => Z.leb n x
  | _ => false
  end.

Definition toBeLessThanOrEqual (v : JsValue) (n : Z) : bool :=
  match v with
  | JNum x => Z.leb x n
  | _ => false
  end.

(** The four expectations on [_creationTime] that both timestamp tests
    make of the created record; [true] when none of them fails. *)
Definition creationTime_expectations (timeBefore : Z) (record : JsObject) (timeAfter : Z)
  : bool :=
  toBeDefined (get record "_creationTime")
  && String.eqb (typeof (get record "_creationTime")) "number"
  && toBeGreaterThanOrEqual (get record "_creationTime") timeBefore
  && toBeLessThanOrEqual (get record "_creationTime") timeAfter.

(** The callback of 'should automatically generate _creationTime for user
    records'. *)
Definition user_timestamp_property (clerkId email role : string)
  (name phoneNumber : option string) : Eff bool :=
  timeBefore <- Date_now ;;
  user <- createUserRecord (user_literal clerkId email role name phoneNumber) ;;
  timeAfter <- Date_now ;;
  ret (creationTime_expectations timeBefore user timeAfter).

(** The callback of 'should automatically generate _creationTime for
    branch records'. *)
Definition branch_timestamp_property
  (name address city state zipCode phoneNumber : string)
  (email : option string) (isActive : bool) : Eff bool :=
  timeBefore <- Date_now ;;
  branch <- createBranchRecord
              (branch_literal name address city state zipCode phoneNumber email isActive) ;;
  timeAfter <- Date_now ;;
  ret (creationTime_expectations timeBefore branch timeAfter).

(** ** Reading the schema *)

(** The optional fields, marked [?], of the parameter types of the two
    creation helpers. *)
Definition UserData_optional : list string := ["name"; "phoneNumber"].

Definition BranchData_optional : list string := ["email"].

(** The tables that a validator refers to by [v.id(...)], at any depth. *)
Fixpoint id_targets (v : Schema.Validator) : list string :=
  match v with
  | Schema.v_id t => [t]
  | Schema.v_optional v' => id_targets v'
  | Schema.v_array v' => id_targets v'
  | Schema.v_union vs => flat_map id_targets vs
  | Schema.v_object fs => flat_map (fun f => id_targets (snd f)) fs
  | _ => []
  end.

(** The tables that the fields of a table refer to. *)
Definition table_references (t : Schema.TableDefinition) : list string :=
  flat_map (fun f => id_targets (snd f)) (Schema.fields t).

(** The names of the tables of a schema, and of the indexes of a table. *)
Definition table_names (s : list (string * Schema.TableDefinition)) : list string :=
  map fst s.

Definition index_names (t : Schema.TableDefinition) : list string :=
  map fst (Schema.indexes t).

(** * Properties *)

(** ** Enumerated role *)

Lemma typeof_string (v : JsValue) :
  String.eqb (typeof v) "string" = true <-> exists s, v = JStr s.
Proof.
  split.
  - destruct v; simpl; try discriminate. eauto.
  - intros [s ->]. reflexivity.
Qed.

Lemma includes_VALID_ROLES (s : string) :
  includes VALID_ROLES (JStr s) = true
  <-> s = "customer" \/ s = "staff" \/ s = "admin".
Proof.
  unfold includes, VALID_ROLES. simpl.
  rewrite !orb_true_iff, !String.eqb_eq. intuition discriminate.
Qed.

Lemma validateRole_string (s : string) :
  isValid (validateRole (JStr s)) = includes VALID_ROLES (JStr s).
Proof.
  unfold validateRole. cbn [typeof String.eqb negb try_catch].
  change (String.eqb "string" "string") with true. cbn [negb].
  destruct (includes VALID_ROLES (JStr s)); reflexivity.
Qed.

Lemma validateRole_not_string (v : JsValue) :
  (forall s, v <> JStr s) -> validateRole v = mkRoleValidation false (Some "Role must be a string").
Proof.
  intros Hv. destruct v; try reflexivity. now destruct (Hv s).
Qed.

(** C1. [validateRole(v)] answers [isValid = true] exactly when [v] is a
    string equal to one of the literals "customer", "staff", "admin"; the
    case variant "Customer" and every value that is no string (number,
    boolean, null, undefined, object, array) get [isValid = false]. *)
Theorem validateRole_enum_closure :
  (forall v : JsValue,
      isValid (validateRole v) = true
      <-> exists s, v = JStr s /\ (s = "customer" \/ s = "staff" \/ s = "admin"))
  /\ (forall s, ~ In s VALID_ROLES -> isValid (validateRole (JStr s)) = false)
  /\ isValid (validateRole (JStr "Customer")) = false
  /\ (forall n, isValid (validateRole (JNum n)) = false)
  /\ (forall b, isValid (validateRole (JBool b)) = false)
  /\ isValid (validateRole JNull) = false
  /\ isValid (validateRole JUndefined) = false
  /\ (forall o, isValid (validateRole (JObj o)) = false)
  /\ (forall xs, isValid (validateRole (JArr xs)) = false).
Proof.
  split; [| split; [| repeat split; reflexivity ]].
  - intros v. split.
    + intros Hv. destruct v; try discriminate Hv.
      exists s. split; [reflexivity |].
      apply includes_VALID_ROLES. now rewrite <- validateRole_string.
    + intros (s & -> & Hs). rewrite validateRole_string.
      now apply includes_VALID_ROLES.
  - intros s Hs. rewrite validateRole_string.
    destruct (includes VALID_ROLES (JStr s)) eqn:E; [| reflexivity].
    exfalso. apply Hs. apply includes_VALID_ROLES in E.
    unfold VALID_ROLES. simpl. intuition.
Qed.

(** The helper and the schema's validator for the role agree on every
    value. *)
Lemma validateRole_userRoleValidator (v : JsValue) :
  isValid (validateRole v) = conforms userRoleValidator v.
Proof.
  destruct v; try reflexivity.
  rewrite validateRole_string. unfold includes, VALID_ROLES, userRoleValidator.
  simpl. now rewrite !(String.eqb_sym s).
Qed.

(** The end-to-end scenario's roles, and values of other types. *)
Example validateRole_customer :
  validateRole (JStr "customer") = mkRoleValidation true None.
Proof. reflexivity. Qed.

Example validateRole_manager :
  validateRole (JStr "manager")
  = mkRoleValidation false (Some "Invalid role: manager").
Proof. reflexivity. Qed.

Example validateRole_number :
  validateRole (JNum 7) = mkRoleValidation false (Some "Role must be a string").
Proof. reflexivity. Qed.

Example validateRole_array :
  validateRole (JArr [JStr "admin"])
  = mkRoleValidation false (Some "Role must be a string").
Proof. reflexivity. Qed.

(** ** Record creation *)

Section Creation.

Variable data : JsObject.
Variable w : World.

Lemma createUserRecord_eq :
  createUserRecord data w =
    (<["_id" := JStr ("user_" +:+ substr 2 9 (draws w (drawn w)))]>
       (<["_creationTime" := JNum (clock w (ticks w))]> data),
     after_creation w).
Proof. reflexivity. Qed.

Lemma createBranchRecord_eq :
  createBranchRecord data w =
    (<["_id" := JStr ("branch_" +:+ substr 2 9 (draws w (drawn w)))]>
       (<["_creationTime" := JNum (clock w (ticks w))]> data),
     after_creation w).
Proof. reflexivity. Qed.

Lemma createUserRecord_creationTime :
  (createUserRecord data w).1 !! "_creationTime" = Some (JNum (clock w (ticks w))).
Proof. rewrite createUserRecord_eq. by simplify_map_eq. Qed.

Lemma createBranchRecord_creationTime :
  (createBranchRecord data w).1 !! "_creationTime" = Some (JNum (clock w (ticks w))).
Proof. rewrite createBranchRecord_eq. by simplify_map_eq. Qed.

Lemma createUserRecord_id :
  (createUserRecord data w).1 !! "_id"
  = Some (JStr ("user_" +:+ substr 2 9 (draws w (drawn w)))).
Proof. rewrite createUserRecord_eq. by simplify_map_eq. Qed.

Lemma createBranchRecord_id :
  (createBranchRecord data w).1 !! "_id"
  = Some (JStr ("branch_" +:+ substr 2 9 (draws w (drawn w)))).
Proof. rewrite createBranchRecord_eq. by simplify_map_eq. Qed.

Lemma createUserRecord_other (k : string) :
  k <> "_creationTime" -> k <> "_id" ->
  (createUserRecord data w).1 !! k = data !! k.
Proof.
  intros Ht Hi. rewrite createUserRecord_eq. cbn [fst].
  by rewrite !lookup_insert_ne.
Qed.

Lemma createBranchRecord_other (k : string) :
  k <> "_creationTime" -> k <> "_id" ->
  (createBranchRecord data w).1 !! k = data !! k.
Proof.
  intros Ht Hi. rewrite createBranchRecord_eq. cbn [fst].
  by rewrite !lookup_insert_ne.
Qed.

Lemma createUserRecord_dom :
  dom (createUserRecord data w).1 = dom data ∪ {["_creationTime"; "_id"]}.
Proof. rewrite createUserRecord_eq. cbn [fst]. rewrite !dom_insert_L.
  apply set_eq. intros k. rewrite !elem_of_union, !elem_of_singleton. tauto.
Qed.

Lemma createBranchRecord_dom :
  dom (createBranchRecord data w).1 = dom data ∪ {["_creationTime"; "_id"]}.
Proof. rewrite createBranchRecord_eq. cbn [fst]. rewrite !dom_insert_L.
  apply set_eq. intros k. rewrite !elem_of_union, !elem_of_singleton. tauto.
Qed.

End Creation.

Example substr_of_a_draw : substr 2 9 "0.4fzyo82mvyr" = "4fzyo82mv".
Proof. reflexivity. Qed.

Example substr_of_zero : substr 2 9 "0" = "".
Proof. reflexivity. Qed.

Example createUserRecord_u1 :
  (createUserRecord Sample.u1 Sample.world).1
  = <["_id" := JStr "user_i"]> (<["_creationTime" := JNum 1700000000000]> Sample.u1).
Proof. reflexivity. Qed.

Example createBranchRecord_b1_then :
  (createBranchRecord Sample.b1 (createUserRecord Sample.u1 Sample.world).2).1
  = <["_id" := JStr "branch_9"]> (<["_creationTime" := JNum 1700000000001]> Sample.b1).
Proof. reflexivity. Qed.

Lemma bracketed_eq {A : Type} (create : Eff A) (w : World) :
  bracketed create w =
    let w0 := (Date_now w).2 in
    let w1 := (create w0).2 in
    ((clock w (ticks w), (create w0).1, clock w1 (ticks w1)), (Date_now w1).2).
Proof.
  unfold bracketed, bind, ret. cbn [Date_now fst snd].
  destruct (create _) as [x w1]. reflexivity.
Qed.

(** C2. With a wall clock that does not run backwards, a creation bracketed
    by the samples [t0] before and [t1] after the call gets a
    [_creationTime] that is a number [t] with [t0 <= t <= t1]; so for
    [createUserRecord] and for [createBranchRecord]. *)
Theorem creationTime_within_bracket (user branch : JsObject) (w : World) :
  monotone_clock w ->
  (exists (t0 t t1 : Z) (r : JsObject) (w' : World),
      bracketed (createUserRecord user) w = (t0, r, t1, w')
      /\ r !! "_creationTime" = Some (JNum t)
      /\ typeof (get r "_creationTime") = "number"
      /\ t0 <= t <= t1)
  /\ (exists (t0 t t1 : Z) (r : JsObject) (w' : World),
      bracketed (createBranchRecord branch) w = (t0, r, t1, w')
      /\ r !! "_creationTime" = Some (JNum t)
      /\ typeof (get r "_creationTime") = "number"
      /\ t0 <= t <= t1).
Proof.
  intros Hmono.
  assert (Hb : clock w (ticks w) <= clock w (S (ticks w)) <= clock w (S (S (ticks w)))).
  { split; apply Hmono; lia. }
  split.
  - exists (clock w (ticks w)), (clock w (S (ticks w))), (clock w (S (S (ticks w)))).
    eexists. eexists. split; [rewrite bracketed_eq; reflexivity |].
    cbn zeta. unfold get. rewrite createUserRecord_creationTime. auto.
  - exists (clock w (ticks w)), (clock w (S (ticks w))), (clock w (S (S (ticks w)))).
    eexists. eexists. split; [rewrite bracketed_eq; reflexivity |].
    cbn zeta. unfold get. rewrite createBranchRecord_creationTime. auto.
Qed.

Lemma creationTime_within_bracket_witness :
  monotone_clock Sample.world
  /\ ((exists (t0 t t1 : Z) (r : JsObject) (w' : World),
         bracketed (createUserRecord Sample.u1) Sample.world = (t0, r, t1, w')
         /\ r !! "_creationTime" = Some (JNum t)
         /\ typeof (get r "_creationTime") = "number"
         /\ t0 <= t <= t1)
      /\ (exists (t0 t t1 : Z) (r : JsObject) (w' : World),
         bracketed (createBranchRecord Sample.b1) Sample.world = (t0, r, t1, w')
         /\ r !! "_creationTime" = Some (JNum t)
         /\ typeof (get r "_creationTime") = "number"
         /\ t0 <= t <= t1)).
Proof.
  assert (H : monotone_clock Sample.world).
  { intros i j Hij. simpl. lia. }
  split; [exact H |].
  exact (creationTime_within_bracket Sample.u1 Sample.b1 Sample.world H).
Defined.

(** C3. Whatever record was created and whatever time is proposed, the
    attempt to modify the creation time reports [success = false] and the
    record holds the [_creationTime] of its creation afterwards. *)
Theorem creationTime_immutable (data : JsObject) (w : World) (newTime : Z) :
  (let r := (createUserRecord data w).1 in
   success (tryModifyCreationTime r newTime).1 = false
   /\ (tryModifyCreationTime r newTime).2 !! "_creationTime" = r !! "_creationTime"
   /\ (tryModifyCreationTime r newTime).2 !! "_creationTime"
      = Some (JNum (clock w (ticks w))))
  /\ (let r := (createBranchRecord data w).1 in
     success (tryModifyCreationTime r newTime).1 = false
     /\ (tryModifyCreationTime r newTime).2 !! "_creationTime" = r !! "_creationTime"
     /\ (tryModifyCreationTime r newTime).2 !! "_creationTime"
        = Some (JNum (clock w (ticks w))))
  /\ (forall record : JsObject,
       success (tryModifyCreationTime record newTime).1 = false
       /\ (tryModifyCreationTime record newTime).2 = record).
Proof.
  cbn zeta. unfold tryModifyCreationTime. cbn [fst snd try_catch success].
  rewrite createUserRecord_creationTime, createBranchRecord_creationTime.
  repeat split.
Qed.

(** C7. A record created from an input that lacks a field (any field but
    the two the creation stamps, so the optional [name], [phoneNumber] and
    [email] among them) lacks that field too: the record has no such
    property, hence neither [null] nor the empty string under it, and
    reading it gives [undefined]. *)
Theorem omitted_field_stays_absent (data : JsObject) (w : World) (k : string) :
  data !! k = None -> k <> "_creationTime" -> k <> "_id" ->
  (let r := (createUserRecord data w).1 in
   r !! k = None /\ r !! k <> Some JNull /\ r !! k <> Some (JStr "")
   /\ get r k = JUndefined)
  /\ (let r := (createBranchRecord data w).1 in
     r !! k = None /\ r !! k <> Some JNull /\ r !! k <> Some (JStr "")
     /\ get r k = JUndefined).
Proof.
  intros Habs Ht Hi. cbn zeta. unfold get.
  rewrite createUserRecord_other, createBranchRecord_other by assumption.
  rewrite Habs. repeat split; discriminate.
Qed.

Lemma omitted_field_stays_absent_witness :
  Sample.u1 !! "name" = None
  /\ (createUserRecord Sample.u1 Sample.world).1 !! "name" = None
  /\ get (createUserRecord Sample.u1 Sample.world).1 "name" = JUndefined
  /\ (createBranchRecord Sample.b1 Sample.world).1 !! "email" = None.
Proof.
  assert (Hn : Sample.u1 !! "name" = None) by (vm_compute; reflexivity).
  assert (He : Sample.b1 !! "email" = None) by (vm_compute; reflexivity).
  assert (Hu := omitted_field_stays_absent Sample.u1 Sample.world "name" Hn
                  ltac:(discriminate) ltac:(discriminate)).
  assert (Hb := omitted_field_stays_absent Sample.b1 Sample.world "email" He
                  ltac:(discriminate) ltac:(discriminate)).
  cbn zeta in Hu, Hb.
  split; [exact Hn |].
  split; [exact (proj1 (proj1 Hu)) |].
  split; [exact (proj2 (proj2 (proj2 (proj1 Hu)))) | exact (proj1 (proj2 Hb))].
Defined.

(** C10. A created record carries every field of its input unchanged (each
    field of the helper's parameter type, and any other that is not one of
    the two stamped names), and its fields are those of the input together
    with [_creationTime] and [_id]; so for [createUserRecord] and for
    [createBranchRecord]. *)
Theorem creation_preserves_input (data : JsObject) (w : World) :
  (let r := (createUserRecord data w).1 in
   (forall k, In k UserData_fields -> r !! k = data !! k)
   /\ (forall k, k <> "_creationTime" -> k <> "_id" -> r !! k = data !! k)
   /\ dom r = dom data ∪ {["_creationTime"; "_id"]})
  /\ (let r := (createBranchRecord data w).1 in
     (forall k, In k BranchData_fields -> r !! k = data !! k)
     /\ (forall k, k <> "_creationTime" -> k <> "_id" -> r !! k = data !! k)
     /\ dom r = dom data ∪ {["_creationTime"; "_id"]}).
Proof.
  cbn zeta. repeat split.
  - intros k Hk. apply createUserRecord_other;
      intros ->; simpl in Hk; intuition discriminate.
  - intros k. apply createUserRecord_other.
  - apply createUserRecord_dom.
  - intros k Hk. apply createBranchRecord_other;
      intros ->; simpl in Hk; intuition discriminate.
  - intros k. apply createBranchRecord_other.
  - apply createBranchRecord_dom.
Qed.

Lemma creation_preserves_input_witness :
  (createUserRecord Sample.u1 Sample.world).1 !! "clerkId" = Some (JStr "u1")
  /\ (createBranchRecord Sample.b1 Sample.world).1 !! "isActive" = Some (JBool true).
Proof.
  split.
  - rewrite (proj1 (proj1 (creation_preserves_input Sample.u1 Sample.world)) "clerkId")
      by (simpl; tauto).
    vm_compute. reflexivity.
  - rewrite (proj1 (proj2 (creation_preserves_input Sample.b1 Sample.world)) "isActive")
      by (simpl; tauto).
    vm_compute. reflexivity.
Defined.

(** ** Identifiers *)

Lemma append_inj_l (p a b : string) : p +:+ a = p +:+ b -> a = b.
Proof.
  induction p as [| c p IH]; simpl; intros H; [exact H |].
  injection H as H. now apply IH.
Qed.

(** C8, as the claim has it, fails: two user creations (and two branch
    creations) whose draws are both 0.5 get the same [_id]. *)
Lemma equal_draws_equal_ids :
  (createUserRecord Sample.u1 Sample.world_equal_draws).1 !! "_id"
  = Some (JStr "user_i")
  /\ (createUserRecord Sample.u1_again
        (createUserRecord Sample.u1 Sample.world_equal_draws).2).1 !! "_id"
     = Some (JStr "user_i")
  /\ (createBranchRecord Sample.b1 Sample.world_equal_draws).1 !! "_id"
     = (createBranchRecord Sample.b1
          (createBranchRecord Sample.b1 Sample.world_equal_draws).2).1 !! "_id".
Proof.
  rewrite !createUserRecord_id, !createBranchRecord_id. repeat split.
Qed.

(** C8, amended. The [_id] of a created record is the prefix of its
    collection, "user_" or "branch_", followed by the slice of at most nine
    units from offset 2 of the base-36 rendering of one draw; two creations
    within a collection, in whatever worlds they run, get the same [_id]
    exactly when the slices of their draws are the same, and distinct ones
    otherwise. *)
Theorem ids_differ_iff_slices_differ (d1 d2 : JsObject) (w1 w2 : World) :
  let s1 := substr 2 9 (draws w1 (drawn w1)) in
  let s2 := substr 2 9 (draws w2 (drawn w2)) in
  (let r1 := (createUserRecord d1 w1).1 in
   let r2 := (createUserRecord d2 w2).1 in
   r1 !! "_id" = Some (JStr ("user_" +:+ s1))
   /\ r2 !! "_id" = Some (JStr ("user_" +:+ s2))
   /\ (r1 !! "_id" = r2 !! "_id" <-> s1 = s2)
   /\ (r1 !! "_id" <> r2 !! "_id" <-> s1 <> s2))
  /\ (let r1 := (createBranchRecord d1 w1).1 in
     let r2 := (createBranchRecord d2 w2).1 in
     r1 !! "_id" = Some (JStr ("branch_" +:+ s1))
     /\ r2 !! "_id" = Some (JStr ("branch_" +:+ s2))
     /\ (r1 !! "_id" = r2 !! "_id" <-> s1 = s2)
     /\ (r1 !! "_id" <> r2 !! "_id" <-> s1 <> s2)).
Proof.
  cbn zeta. rewrite !createUserRecord_id, !createBranchRecord_id.
  set (s1 := substr 2 9 (draws w1 (drawn w1))).
  set (s2 := substr 2 9 (draws w2 (drawn w2))).
  assert (Hu : Some (JStr ("user_" +:+ s1)) = Some (JStr ("user_" +:+ s2)) <-> s1 = s2).
  { split; [| now intros ->]. intros H. injection H as H. revert H. apply append_inj_l. }
  assert (Hb : Some (JStr ("branch_" +:+ s1)) = Some (JStr ("branch_" +:+ s2)) <-> s1 = s2).
  { split; [| now intros ->]. intros H. injection H as H. revert H. apply append_inj_l. }
  repeat split; try tauto.
Qed.

(** Two creations in a row, the draws being 0.5 and then 0.25. *)
Lemma ids_differ_iff_slices_differ_witness :
  (createUserRecord Sample.u1 Sample.world).1 !! "_id"
  <> (createUserRecord Sample.u1_again
        (createUserRecord Sample.u1 Sample.world).2).1 !! "_id".
Proof.
  apply (proj2 (proj2 (proj2 (proj1
           (ids_differ_iff_slices_differ Sample.u1 Sample.u1_again Sample.world
              (createUserRecord Sample.u1 Sample.world).2))))).
  discriminate.
Defined.

(** ** Uniqueness of the lookup keys *)

Lemma createUserRecords_cons (d : JsObject) (ds : list JsObject) (w : World) :
  createUserRecords (d :: ds) w =
    ((createUserRecord d w).1 :: (createUserRecords ds (createUserRecord d w).2).1,
     (createUserRecords ds (createUserRecord d w).2).2).
Proof.
  cbn [createUserRecords]. unfold bind at 1. rewrite createUserRecord_eq.
  unfold bind, ret. cbn [fst snd].
  destruct (createUserRecords ds _) as [rs w']. reflexivity.
Qed.

Lemma createUserRecords_length (ds : list JsObject) :
  forall w, length (createUserRecords ds w).1 = length ds.
Proof.
  induction ds as [| d ds IH]; intros w; [reflexivity |].
  rewrite createUserRecords_cons. cbn [fst length]. now rewrite IH.
Qed.

Lemma createUserRecords_lookup (ds : list JsObject) :
  forall (w : World) (i : nat) (d : JsObject),
    ds !! i = Some d ->
    exists r, (createUserRecords ds w).1 !! i = Some r
              /\ r !! "clerkId" = d !! "clerkId".
Proof.
  induction ds as [| d0 ds IH]; intros w i d Hi; [discriminate Hi |].
  rewrite createUserRecords_cons. cbn [fst].
  destruct i as [| i]; cbn in Hi |- *.
  - injection Hi as ->. eexists. split; [reflexivity |].
    now apply createUserRecord_other.
  - now apply IH.
Qed.

(** C4, as the claim has it, fails: creating the user of clerkId "u1" and
    then another user of clerkId "u1" returns two records, and the two hold
    the same clerkId. *)
Lemma same_clerkId_twice :
  ~ unique_on ["clerkId"]
      (createUserRecords [Sample.u1; Sample.u1_again] Sample.world).1.
Proof.
  intros Huniq.
  specialize (Huniq 0%nat 1%nat _ _ eq_refl eq_refl).
  discriminate Huniq. vm_compute. reflexivity.
Qed.

(** C4, amended. The schema declares [by_clerkId], [by_orderNumber] and
    [by_branchId_tableNumber] as indexes over (clerkId), (orderNumber) and
    (branchId, tableNumber), and an index declaration is a name with a key
    tuple and nothing more.  The creation of users checks no key: every
    creation of a sequence returns a record with the clerkId it was given,
    so two creations that present the same clerkId both return one, and the
    records returned are not unique on clerkId. *)
Theorem creation_checks_no_uniqueness :
  index_keys Schema.users "by_clerkId" = Some ["clerkId"]
  /\ index_keys Schema.orders "by_orderNumber" = Some ["orderNumber"]
  /\ index_keys Schema.tables "by_branchId_tableNumber"
     = Some ["branchId"; "tableNumber"]
  /\ (forall (ds : list JsObject) (w : World),
       length (createUserRecords ds w).1 = length ds
       /\ forall (i : nat) (d : JsObject),
           ds !! i = Some d ->
           exists r, (createUserRecords ds w).1 !! i = Some r
                     /\ r !! "clerkId" = d !! "clerkId")
  /\ (forall (d1 d2 : JsObject) (w : World),
       d1 !! "clerkId" = d2 !! "clerkId" ->
       ~ unique_on ["clerkId"] (createUserRecords [d1; d2] w).1).
Proof.
  split; [reflexivity |]. split; [reflexivity |]. split; [reflexivity |].
  split.
  - intros ds w. split; [apply createUserRecords_length |].
    intros i d. apply createUserRecords_lookup.
  - intros d1 d2 w Hsame Huniq.
    destruct (createUserRecords_lookup [d1; d2] w 0 d1 eq_refl) as (r1 & Hr1 & Hk1).
    destruct (createUserRecords_lookup [d1; d2] w 1 d2 eq_refl) as (r2 & Hr2 & Hk2).
    specialize (Huniq 0%nat 1%nat r1 r2 Hr1 Hr2).
    unfold index_key in Huniq. cbn [map] in Huniq.
    rewrite Hk1, Hk2, Hsame in Huniq. specialize (Huniq eq_refl). discriminate Huniq.
Qed.

Lemma creation_checks_no_uniqueness_witness :
  Sample.u1 !! "clerkId" = Sample.u1_again !! "clerkId"
  /\ ~ unique_on ["clerkId"]
        (createUserRecords [Sample.u1; Sample.u1_again] Sample.world_equal_draws).1.
Proof.
  assert (H : Sample.u1 !! "clerkId" = Sample.u1_again !! "clerkId")
    by (vm_compute; reflexivity).
  split; [exact H |].
  exact (proj2 (proj2 (proj2 (proj2 creation_checks_no_uniqueness)))
           Sample.u1 Sample.u1_again Sample.world_equal_draws H).
Defined.

(** ** The declarations of the schema *)

(** Membership in a list that is written out. *)
Ltac in_list := cbn; repeat (first [left; reflexivity | right]).

(** A union of string literals accepts the strings it lists and nothing
    else. *)
Lemma conforms_literals (ls : list string) (x : JsValue) :
  conforms (Schema.v_union (map Schema.v_literal ls)) x = true
  <-> exists s, x = JStr s /\ In s ls.
Proof.
  cbn [conforms]. rewrite existsb_exists. split.
  - intros (v & Hv & Hx). apply in_map_iff in Hv as (l & <- & Hl).
    destruct x; try discriminate Hx. cbn in Hx. apply String.eqb_eq in Hx as ->.
    eauto.
  - intros (s & -> & Hs). exists (Schema.v_literal s). split.
    + now apply in_map.
    + cbn. apply String.eqb_refl.
Qed.

(** C5, as the claim has it, fails: the payments table declares a field
    [transactionDate], which is none of the fields the claim lists. *)
Lemma payments_declares_transactionDate :
  In "transactionDate" (Schema.field_names Schema.payments)
  /\ ~ In "transactionDate" payment_fields_listed
  /\ ~ (forall k, In k (Schema.field_names Schema.payments)
                  <-> In k payment_fields_listed).
Proof.
  assert (Hin : In "transactionDate" (Schema.field_names Schema.payments)).
  { in_list. }
  assert (Hout : ~ In "transactionDate" payment_fields_listed).
  { cbn. intuition discriminate. }
  split; [exact Hin |]. split; [exact Hout |].
  intros H. apply Hout, H, Hin.
Qed.

(** C5, amended. The payments table declares exactly the fields orderId,
    optional stripePaymentIntentId, amount, status, paymentMethod and
    optional transactionDate (a number), status being one of the literals
    pending, succeeded, failed, refunded and paymentMethod one of card,
    cash, other. *)
Theorem payments_fields :
  Schema.field_names Schema.payments
  = ["orderId"; "stripePaymentIntentId"; "amount"; "status"; "paymentMethod";
     "transactionDate"]
  /\ (forall k, In k (Schema.field_names Schema.payments)
                <-> In k payment_fields_listed \/ k = "transactionDate")
  /\ Schema.field Schema.payments "orderId" = Some (Schema.v_id "orders")
  /\ Schema.field Schema.payments "stripePaymentIntentId"
     = Some (Schema.v_optional Schema.v_string)
  /\ Schema.field Schema.payments "amount" = Some Schema.v_number
  /\ Schema.field Schema.payments "status"
     = Some (Schema.v_union
               (map Schema.v_literal ["pending"; "succeeded"; "failed"; "refunded"]))
  /\ Schema.field Schema.payments "paymentMethod"
     = Some (Schema.v_union (map Schema.v_literal ["card"; "cash"; "other"]))
  /\ Schema.field Schema.payments "transactionDate"
     = Some (Schema.v_optional Schema.v_number).
Proof.
  split; [reflexivity |].
  split; [intros k; cbn; intuition congruence |].
  repeat split.
Qed.

(** C6. The indexes the schema declares, collection by collection and in
    the order declared, are the tuples of the catalogue, with the key fields
    of each in the listed order: none is missing and none is beyond it. *)
Theorem declared_indexes_are_the_catalogue :
  Schema.declared_indexes Schema.schema = catalogue
  /\ (forall c ks, In (c, ks) (Schema.declared_indexes Schema.schema)
                   <-> In (c, ks) catalogue)
  /\ In ("menuItems", ["isAvailable"; "categoryId"])
        (Schema.declared_indexes Schema.schema)
  /\ In ("tables", ["branchId"; "tableNumber"])
        (Schema.declared_indexes Schema.schema)
  /\ In ("analytics", ["periodStart"; "periodEnd"])
        (Schema.declared_indexes Schema.schema)
  /\ ~ In ("menuItems", ["categoryId"; "isAvailable"])
          (Schema.declared_indexes Schema.schema).
Proof.
  assert (E : Schema.declared_indexes Schema.schema = catalogue) by reflexivity.
  split; [exact E |]. rewrite E.
  split; [intros c ks; reflexivity |].
  do 3 (split; [in_list |]).
  cbn. intros H.
  repeat (destruct H as [H | H]; [discriminate H |]). exact H.
Qed.

(** What conformance to the tables collection asks of the two key fields. *)
Lemma conforms_tables_keys (doc : JsObject) :
  conforms_table Schema.tables doc = true ->
  exists b n, doc !! "branchId" = Some (JStr b) /\ doc !! "tableNumber" = Some (JStr n).
Proof.
  unfold conforms_table, Schema.tables, Schema.index, Schema.defineTable.
  cbn [Schema.fields conforms forallb fst snd is_optional].
  intros H. apply andb_prop in H as [Hb H]. apply andb_prop in H as [Hn _].
  destruct (doc !! "branchId") as [[]|]; try discriminate Hb.
  destruct (doc !! "tableNumber") as [[]|]; try discriminate Hn.
  eauto.
Qed.

Lemma conforms_tables_numeric (doc : JsObject) (n : Z) :
  doc !! "tableNumber" = Some (JNum n) -> conforms_table Schema.tables doc = false.
Proof.
  intros Hn.
  destruct (conforms_table Schema.tables doc) eqn:E; [| reflexivity].
  apply conforms_tables_keys in E as (b & s & _ & Hs). congruence.
Qed.

(** C9. The tables collection declares [tableNumber] as a string: a table
    document whose tableNumber is a number does not conform; the key of the
    index on (branchId, tableNumber) holds, for conforming documents, two
    strings, and two keys are the same exactly when the branch identifiers
    are the same string and the table numbers are the same string, so that
    "1" and "01" are two table numbers. *)
Theorem tableNumber_is_a_string :
  Schema.field Schema.tables "tableNumber" = Some Schema.v_string
  /\ index_keys Schema.tables "by_branchId_tableNumber"
     = Some ["branchId"; "tableNumber"]
  /\ (forall (doc : JsObject) (n : Z),
       doc !! "tableNumber" = Some (JNum n) ->
       conforms_table Schema.tables doc = false)
  /\ (forall d1 d2 : JsObject,
       conforms_table Schema.tables d1 = true ->
       conforms_table Schema.tables d2 = true ->
       exists b1 n1 b2 n2 : string,
         index_key ["branchId"; "tableNumber"] d1 = [Some (JStr b1); Some (JStr n1)]
         /\ index_key ["branchId"; "tableNumber"] d2 = [Some (JStr b2); Some (JStr n2)]
         /\ (index_key ["branchId"; "tableNumber"] d1
             = index_key ["branchId"; "tableNumber"] d2
             <-> b1 = b2 /\ n1 = n2))
  /\ conforms_table Schema.tables Sample.table_1 = true
  /\ conforms_table Schema.tables Sample.table_01 = true
  /\ index_key ["branchId"; "tableNumber"] Sample.table_1
     <> index_key ["branchId"; "tableNumber"] Sample.table_01.
Proof.
  split; [reflexivity |]. split; [reflexivity |].
  split; [exact conforms_tables_numeric |].
  split.
  - intros d1 d2 H1 H2.
    apply conforms_tables_keys in H1 as (b1 & n1 & Hb1 & Hn1).
    apply conforms_tables_keys in H2 as (b2 & n2 & Hb2 & Hn2).
    exists b1, n1, b2, n2. unfold index_key. cbn [map].
    rewrite Hb1, Hn1, Hb2, Hn2. repeat split.
    + congruence.
    + congruence.
    + intros [-> ->]. reflexivity.
  - split; [vm_compute; reflexivity |]. split; [vm_compute; reflexivity |].
    vm_compute. discriminate.
Qed.

Lemma tableNumber_is_a_string_witness :
  Sample.table_numeric !! "tableNumber" = Some (JNum 1)
  /\ conforms_table Schema.tables Sample.table_numeric = false.
Proof.
  assert (H : Sample.table_numeric !! "tableNumber" = Some (JNum 1))
    by (vm_compute; reflexivity).
  split; [exact H |].
  exact (proj1 (proj2 (proj2 tableNumber_is_a_string)) Sample.table_numeric 1 H).
Defined.


(** * Further properties of the helpers and of the schema *)

(** A list that is written out has no element twice. *)
Ltac nodup_list :=
  repeat (apply NoDup_cons_2;
          [rewrite list_elem_of_In; cbn; intuition discriminate |]);
  apply NoDup_nil_2.

(** ** What [validateRole] reports *)

(** X1. [validateRole] reports an error exactly when it answers invalid:
    a value that is no string gets "Role must be a string", a string outside
    the roles gets "Invalid role: " followed by the string itself, and a
    valid role gets no error. *)
Theorem validateRole_error_report (v : JsValue) :
  (isValid (validateRole v) = true <-> error (validateRole v) = None)
  /\ ((forall s, v <> JStr s) ->
      error (validateRole v) = Some "Role must be a string")
  /\ (forall s, v = JStr s -> isValid (validateRole v) = false ->
      error (validateRole v) = Some ("Invalid role: " +:+ s)).
Proof.
  destruct v as [| | b | n | s | o | xs];
    try (split; [split; discriminate | split; [reflexivity |]];
         intros s Hs; discriminate Hs).
  unfold validateRole. cbn [typeof try_catch to_String].
  change (String.eqb "string" "string") with true. cbn [negb].
  destruct (includes VALID_ROLES (JStr s)) eqn:E; cbn [negb isValid error].
  - split; [tauto |]. split.
    + intros H. now destruct (H s).
    + intros s' _ H. discriminate H.
  - split; [split; discriminate |]. split.
    + intros H. now destruct (H s).
    + intros s' Hs' _. now injection Hs' as <-.
Qed.

Lemma validateRole_error_report_witness :
  error (validateRole (JArr [JStr "admin"])) = Some "Role must be a string"
  /\ error (validateRole (JStr "Admin")) = Some "Invalid role: Admin".
Proof.
  split.
  - apply (proj1 (proj2 (validateRole_error_report (JArr [JStr "admin"])))).
    intros s. discriminate.
  - apply (proj2 (proj2 (validateRole_error_report (JStr "Admin"))) "Admin");
      reflexivity.
Defined.

(** X2. The roles of the helper are the roles of the schema: a string is
    valid for [validateRole] exactly when its literal is one of the
    alternatives that the users table declares for [role], which is the
    union that the test file repeats as [userRoleValidator]. *)
Theorem validateRole_matches_schema_role :
  Schema.field Schema.users "role" = Some userRoleValidator
  /\ userRoleValidator = Schema.v_union (map Schema.v_literal VALID_ROLES)
  /\ NoDup VALID_ROLES
  /\ (forall s : string,
       isValid (validateRole (JStr s)) = true
       <-> exists vs, Schema.field Schema.users "role" = Some (Schema.v_union vs)
                      /\ In (Schema.v_literal s) vs).
Proof.
  split; [reflexivity |]. split; [reflexivity |].
  split; [unfold VALID_ROLES; nodup_list |].
  intros s. rewrite validateRole_string, includes_VALID_ROLES. split.
  - intros H. eexists. split; [reflexivity |].
    cbn. destruct H as [-> | [-> | ->]]; tauto.
  - intros (vs & Hvs & Hin). injection Hvs as <-.
    cbn in Hin. destruct Hin as [H | [H | [H | []]]]; injection H as <-; tauto.
Qed.

(** ** The shape of an identifier *)

Lemma substring_length (s : string) :
  forall n m : nat,
    String.length (String.substring n m s) = Nat.min m (String.length s - n).
Proof.
  induction s as [| c s IH]; intros n m.
  - destruct n, m; reflexivity.
  - destruct n as [| n].
    + destruct m as [| m]; [reflexivity |].
      cbn [String.substring String.length]. rewrite IH. simpl. lia.
    + cbn [String.substring String.length]. rewrite IH. reflexivity.
Qed.

Lemma substring_piece (s : string) :
  forall n m : nat,
    exists pre post : string,
      s = pre +:+ String.substring n m s +:+ post
      /\ String.length pre = Nat.min n (String.length s).
Proof.
  induction s as [| c s IH]; intros n m.
  - exists "", "". destruct n, m; split; reflexivity.
  - destruct n as [| n].
    + destruct m as [| m].
      * exists "", (String c s). split; reflexivity.
      * destruct (IH 0%nat m) as (pre & post & Hs & Hpre).
        destruct pre; [| discriminate Hpre].
        exists "", post. split; [| reflexivity].
        change (String c s = String c (String.substring 0 m s +:+ post)).
        f_equal. exact Hs.
    + destruct (IH n m) as (pre & post & Hs & Hpre).
      exists (String c pre), post. split.
      * change (String c s = String c (pre +:+ String.substring n m s +:+ post)).
        f_equal. exact Hs.
      * cbn [String.length]. rewrite Hpre. reflexivity.
Qed.

Lemma append_length (a b : string) :
  String.length (a +:+ b) = (String.length a + String.length b)%nat.
Proof.
  induction a as [| c a IH]; [reflexivity |].
  change (S (String.length (a +:+ b)) = S (String.length a + String.length b)).
  now rewrite IH.
Qed.

(** X3. The [_id] of a created user is "user_" followed by a piece of the
    rendered draw: the piece starts after the first two units of the
    rendering and has nine units, or as many as are left; so the [_id] has
    between 5 and 14 units, and it is "user_" alone when the rendering has
    no more than two units (as "0", the rendering of the draw 0, has).
    Likewise for a branch, with "branch_" and between 7 and 16 units. *)
Theorem id_shape (data : JsObject) (w : World) :
  let r := draws w (drawn w) in
  exists suffix pre post : string,
    r = pre +:+ suffix +:+ post
    /\ String.length pre = Nat.min 2 (String.length r)
    /\ String.length suffix = Nat.min 9 (String.length r - 2)
    /\ (createUserRecord data w).1 !! "_id" = Some (JStr ("user_" +:+ suffix))
    /\ (createBranchRecord data w).1 !! "_id" = Some (JStr ("branch_" +:+ suffix))
    /\ (5 <= String.length ("user_" +:+ suffix) <= 14)%nat
    /\ (7 <= String.length ("branch_" +:+ suffix) <= 16)%nat
    /\ ((String.length r <= 2)%nat -> suffix = "").
Proof.
  cbn zeta. set (r := draws w (drawn w)).
  destruct (substring_piece r 2 9) as (pre & post & Hr & Hpre).
  exists (substr 2 9 r), pre, post.
  assert (Hlen : String.length (substr 2 9 r) = Nat.min 9 (String.length r - 2))
    by apply substring_length.
  split; [exact Hr |]. split; [exact Hpre |]. split; [exact Hlen |].
  split; [apply createUserRecord_id |]. split; [apply createBranchRecord_id |].
  rewrite !append_length, Hlen. cbn [String.length].
  split; [lia |]. split; [lia |].
  intros Hshort. destruct (substr 2 9 r) eqn:E; [reflexivity |].
  cbn [String.length] in Hlen. lia.
Qed.

Lemma id_shape_witness :
  (createUserRecord Sample.u1 (mkWorld (fun _ => 0) 0 (fun _ => "0") 0)).1 !! "_id"
  = Some (JStr "user_").
Proof.
  destruct (id_shape Sample.u1 (mkWorld (fun _ => 0) 0 (fun _ => "0") 0))
    as (suffix & pre & post & _ & _ & _ & Hid & _ & _ & _ & Hshort).
  cbn zeta in Hshort. rewrite Hid, Hshort; [reflexivity | simpl; lia].
Defined.

(** X4. A user and a branch never get the same [_id], whatever the draws:
    the prefixes tell the two collections apart. *)
Theorem user_id_never_branch_id (user branch : JsObject) (w1 w2 : World) :
  (createUserRecord user w1).1 !! "_id" <> (createBranchRecord branch w2).1 !! "_id".
Proof.
  rewrite createUserRecord_id, createBranchRecord_id.
  intros H. cbv [String.append] in H. discriminate H.
Qed.

(** X5. Stamping replaces stamps: an [_id] or a [_creationTime] that the
    input brings is overwritten, and creating a record from one that was
    created before gives what creating it from the first input gives. *)
Theorem restamping (data : JsObject) (w w' : World) (v : JsValue) :
  (createUserRecord (<["_id" := v]> data) w).1 = (createUserRecord data w).1
  /\ (createUserRecord (<["_creationTime" := v]> data) w).1 = (createUserRecord data w).1
  /\ (createUserRecord (createUserRecord data w).1 w').1 = (createUserRecord data w').1
  /\ (createBranchRecord (createBranchRecord data w).1 w').1
     = (createBranchRecord data w').1
  /\ (createBranchRecord (createUserRecord data w).1 w').1
     = (createBranchRecord data w').1.
Proof.
  rewrite !createUserRecord_eq, !createBranchRecord_eq. cbn [fst].
  repeat split; apply map_eq; intros k;
    (destruct (decide (k = "_id")) as [Hi | Hi];
     [subst k | destruct (decide (k = "_creationTime")) as [Ht | Ht]; [subst k |]]);
    by simplify_map_eq.
Qed.

(** ** Creations in a row *)

Lemma createUserRecords_nth (ds : list JsObject) :
  forall (w : World) (i : nat) (d : JsObject),
    ds !! i = Some d ->
    (createUserRecords ds w).1 !! i
    = Some (<["_id" := JStr ("user_" +:+ substr 2 9 (draws w (drawn w + i)%nat))]>
              (<["_creationTime" := JNum (clock w (ticks w + i)%nat)]> d)).
Proof.
  induction ds as [| d0 ds IH]; intros w i d Hi; [discriminate Hi |].
  rewrite createUserRecords_cons. cbn [fst].
  destruct i as [| i].
  - injection Hi as ->. rewrite !Nat.add_0_r. reflexivity.
  - cbn [lookup list_lookup] in Hi |- *. rewrite (IH _ i d Hi).
    rewrite createUserRecord_eq. cbn [snd after_creation clock ticks draws drawn].
    now rewrite !Nat.add_succ_comm.
Qed.

Lemma createUserRecords_world (ds : list JsObject) :
  forall w : World,
    (createUserRecords ds w).2
    = mkWorld (clock w) (ticks w + length ds) (draws w) (drawn w + length ds).
Proof.
  induction ds as [| d0 ds IH]; intros w.
  - destruct w as [c t r n]. cbn. now rewrite !Nat.add_0_r.
  - rewrite createUserRecords_cons. cbn [snd]. rewrite IH, createUserRecord_eq.
    cbn [snd after_creation clock ticks draws drawn length].
    now rewrite !Nat.add_succ_comm.
Qed.

(** X6. Users created one after the other use the clock and the draws in
    order: the i-th record is the i-th input stamped with the i-th reading
    and the i-th draw counted from the start, and afterwards the world is as
    many readings and as many draws further as records were created. *)
Theorem creations_in_a_row (ds : list JsObject) (w : World) :
  (forall (i : nat) (d : JsObject),
      ds !! i = Some d ->
      (createUserRecords ds w).1 !! i
      = Some (<["_id" := JStr ("user_" +:+ substr 2 9 (draws w (drawn w + i)%nat))]>
                (<["_creationTime" := JNum (clock w (ticks w + i)%nat)]> d)))
  /\ (forall i : nat, (length ds <= i)%nat -> (createUserRecords ds w).1 !! i = None)
  /\ (createUserRecords ds w).2
     = mkWorld (clock w) (ticks w + length ds) (draws w) (drawn w + length ds).
Proof.
  split; [apply createUserRecords_nth |].
  split; [| apply createUserRecords_world].
  intros i Hi. apply lookup_ge_None. now rewrite createUserRecords_length.
Qed.

Lemma creations_in_a_row_witness :
  (createUserRecords [Sample.u1; Sample.u1_again] Sample.world).1 !! 1%nat
  = Some (<["_id" := JStr "user_9"]>
            (<["_creationTime" := JNum 1700000000001]> Sample.u1_again)).
Proof.
  exact (proj1 (creations_in_a_row [Sample.u1; Sample.u1_again] Sample.world)
           1%nat Sample.u1_again eq_refl).
Defined.

(** X7. With a clock that does not run backwards, the creation times of
    users created one after the other do not decrease: a record created
    later never holds an earlier [_creationTime]. *)
Theorem creation_times_nondecreasing (ds : list JsObject) (w : World)
  (i j : nat) (ri rj : JsObject) :
  monotone_clock w ->
  (i <= j)%nat ->
  (createUserRecords ds w).1 !! i = Some ri ->
  (createUserRecords ds w).1 !! j = Some rj ->
  exists ti tj : Z,
    ri !! "_creationTime" = Some (JNum ti)
    /\ rj !! "_creationTime" = Some (JNum tj)
    /\ ti <= tj.
Proof.
  intros Hmono Hij Hi Hj.
  assert (Hdi : is_Some (ds !! i)).
  { apply lookup_lt_is_Some. rewrite <- (createUserRecords_length ds w).
    apply lookup_lt_is_Some. eauto. }
  assert (Hdj : is_Some (ds !! j)).
  { apply lookup_lt_is_Some. rewrite <- (createUserRecords_length ds w).
    apply lookup_lt_is_Some. eauto. }
  destruct Hdi as [di Hdi]. destruct Hdj as [dj Hdj].
  rewrite (createUserRecords_nth ds w i di Hdi) in Hi. injection Hi as <-.
  rewrite (createUserRecords_nth ds w j dj Hdj) in Hj. injection Hj as <-.
  exists (clock w (ticks w + i)%nat), (clock w (ticks w + j)%nat).
  split; [by simplify_map_eq |]. split; [by simplify_map_eq |].
  apply Hmono. lia.
Qed.

Lemma creation_times_nondecreasing_witness :
  exists ti tj : Z,
    (createUserRecord Sample.u1 Sample.world).1 !! "_creationTime" = Some (JNum ti)
    /\ (createUserRecord Sample.u1_again (after_creation Sample.world)).1
         !! "_creationTime" = Some (JNum tj)
    /\ ti <= tj.
Proof.
  assert (Hmono : monotone_clock Sample.world).
  { intros i j Hij. simpl. lia. }
  exact (creation_times_nondecreasing [Sample.u1; Sample.u1_again] Sample.world
           0 1 _ _ Hmono ltac:(lia) eq_refl eq_refl).
Defined.

(** ** The timestamp tests *)

Lemma creationTime_expectations_iff (t0 t t1 : Z) (record : JsObject) :
  record !! "_creationTime" = Some (JNum t) ->
  creationTime_expectations t0 record t1 = true <-> t0 <= t <= t1.
Proof.
  intros Hr. unfold creationTime_expectations, get. rewrite Hr.
  cbn [default from_option id toBeDefined typeof
       toBeGreaterThanOrEqual toBeLessThanOrEqual].
  change (String.eqb "number" "number") with true. cbn [andb].
  rewrite andb_true_iff, !Z.leb_le. reflexivity.
Qed.

(** X8. The expectations of the two timestamp tests hold exactly when the
    three readings of the clock, before, at and after the creation, are in
    order; no argument that the test draws has a part in it.  So they hold
    with every clock that does not run backwards, and fail when the clock
    is set back between two of the readings. *)
Theorem timestamp_tests_pass_iff (w : World) :
  (forall (clerkId email role : string) (name phoneNumber : option string),
      (user_timestamp_property clerkId email role name phoneNumber w).1 = true
      <-> clock w (ticks w) <= clock w (S (ticks w)) <= clock w (S (S (ticks w))))
  /\ (forall (name address city state zipCode phoneNumber : string)
            (email : option string) (isActive : bool),
      (branch_timestamp_property
         name address city state zipCode phoneNumber email isActive w).1 = true
      <-> clock w (ticks w) <= clock w (S (ticks w)) <= clock w (S (S (ticks w))))
  /\ (monotone_clock w ->
      forall (clerkId email role : string) (name phoneNumber : option string),
        (user_timestamp_property clerkId email role name phoneNumber w).1 = true).
Proof.
  assert (Hu : forall c e r n p,
             (user_timestamp_property c e r n p w).1 = true
             <-> clock w (ticks w) <= clock w (S (ticks w)) <= clock w (S (S (ticks w)))).
  { intros c e r n p.
    change ((user_timestamp_property c e r n p w).1)
      with (creationTime_expectations (clock w (ticks w))
              (createUserRecord (user_literal c e r n p) (Date_now w).2).1
              (clock w (S (S (ticks w))))).
    apply creationTime_expectations_iff.
    apply (createUserRecord_creationTime _ (Date_now w).2). }
  split; [exact Hu |]. split.
  - intros n a c s z p e b.
    change ((branch_timestamp_property n a c s z p e b w).1)
      with (creationTime_expectations (clock w (ticks w))
              (createBranchRecord (branch_literal n a c s z p e b) (Date_now w).2).1
              (clock w (S (S (ticks w))))).
    apply creationTime_expectations_iff.
    apply (createBranchRecord_creationTime _ (Date_now w).2).
  - intros Hmono c e r n p. apply Hu. split; apply Hmono; lia.
Qed.

(** A clock that is set back by a second after its first reading: the
    test of user records fails. *)
Lemma timestamp_tests_pass_iff_witness :
  (user_timestamp_property "u1" "a@b.com" "customer" None None
     (mkWorld (fun k => match k with O => 5000 | S _ => 4000 end) 0
              (fun _ => "0.i") 0)).1 = false
  /\ (user_timestamp_property "u1" "a@b.com" "customer" None None Sample.world).1 = true.
Proof.
  split.
  - apply not_true_is_false. intros H.
    apply (proj1 (timestamp_tests_pass_iff _)) in H. simpl in H. lia.
  - apply (proj1 (timestamp_tests_pass_iff Sample.world)). simpl. lia.
Defined.

(** X9. An optional argument that the first timestamp test did not draw is
    still written into the object it passes, holding [undefined], and the
    created record keeps it as a property; the record of the immutability
    test, whose object leaves [name] out, has no such property.  Reading
    [name] gives [undefined] for both, though the first record has seven
    properties and the second five. *)
Theorem undefined_argument_is_a_property
  (clerkId email role : string) (phoneNumber : option string) (w : World) :
  let written :=
    (createUserRecord (user_literal clerkId email role None phoneNumber) w).1 in
  let omitted :=
    (createUserRecord (user_literal_required clerkId email role) w).1 in
  written !! "name" = Some JUndefined
  /\ omitted !! "name" = None
  /\ get written "name" = get omitted "name"
  /\ dom written = dom omitted ∪ {["name"; "phoneNumber"]}
  /\ size written = 7%nat
  /\ size omitted = 5%nat.
Proof.
  cbn zeta. unfold get.
  rewrite !createUserRecord_other by discriminate.
  rewrite !createUserRecord_eq. cbn [fst].
  unfold user_literal, user_literal_required.
  split; [by simplify_map_eq |]. split; [by simplify_map_eq |].
  split; [by simplify_map_eq |].
  split; [rewrite !dom_insert_L; set_solver |].
  rewrite <- !size_dom, !dom_insert_L, dom_empty_L.
  split; reflexivity.
Qed.

(** ** Well-formedness of the schema *)

(** The cases of a membership in a list that is written out. *)
Ltac in_cases H :=
  cbn in H;
  repeat (match type of H with _ \/ _ => destruct H as [H | H] end);
  try contradiction.

(** The table that a membership in the schema speaks of. *)
Ltac table_cases H :=
  unfold Schema.schema, Schema.defineSchema in H; cbn [In] in H;
  repeat (match type of H with _ \/ _ => destruct H as [H | H] end);
  try contradiction; injection H as <- <-.

(** X10. Every key field of every index of the schema is a field that the
    index's own table declares. *)
Theorem index_fields_are_declared
  (tableName : string) (t : Schema.TableDefinition)
  (indexName : string) (keys : list string) (k : string) :
  In (tableName, t) Schema.schema ->
  In (indexName, keys) (Schema.indexes t) ->
  In k keys ->
  In k (Schema.field_names t).
Proof.
  intros Ht Hix Hk. table_cases Ht;
    in_cases Hix; injection Hix as <- <-;
    in_cases Hk; subst k; in_list.
Qed.

Lemma index_fields_are_declared_witness :
  In "tableNumber" (Schema.field_names Schema.tables).
Proof.
  apply (index_fields_are_declared "tables" Schema.tables
           "by_branchId_tableNumber" ["branchId"; "tableNumber"] "tableNumber");
    in_list.
Defined.

(** X11. Every [v.id(...)] of the schema, at whatever depth of a field's
    validator, names a table that the schema defines. *)
Theorem id_references_resolve
  (tableName : string) (t : Schema.TableDefinition) (target : string) :
  In (tableName, t) Schema.schema ->
  In target (table_references t) ->
  exists t' : Schema.TableDefinition, In (target, t') Schema.schema.
Proof.
  intros Ht Hr. table_cases Ht; in_cases Hr; subst target;
    eexists; in_list.
Qed.

Lemma id_references_resolve_witness :
  exists t' : Schema.TableDefinition, In ("menuItems", t') Schema.schema.
Proof.
  apply (id_references_resolve "analytics" Schema.analytics "menuItems"); in_list.
Defined.

(** X12. No name is declared twice: the tables of the schema have distinct
    names, and within each table the fields have distinct names and the
    indexes have distinct names. *)
Theorem names_are_declared_once :
  NoDup (table_names Schema.schema)
  /\ (forall (tableName : string) (t : Schema.TableDefinition),
       In (tableName, t) Schema.schema ->
       NoDup (Schema.field_names t) /\ NoDup (index_names t)).
Proof.
  split; [cbn; nodup_list |].
  intros tn t Ht. table_cases Ht; split; cbn; nodup_list.
Qed.

Lemma names_are_declared_once_witness :
  NoDup (Schema.field_names Schema.orders) /\ NoDup (index_names Schema.orders).
Proof.
  apply (proj2 names_are_declared_once "orders" Schema.orders). in_list.
Defined.

(** X13. The two stamps take the place of no declared field: no table of
    the schema declares a field [_id] or [_creationTime], so a record
    created from a document holds, under every field name of every table,
    what the document holds. *)
Theorem stamps_spare_declared_fields
  (tableName : string) (t : Schema.TableDefinition) (k : string)
  (data : JsObject) (w : World) :
  In (tableName, t) Schema.schema ->
  In k (Schema.field_names t) ->
  k <> "_id" /\ k <> "_creationTime"
  /\ (createUserRecord data w).1 !! k = data !! k
  /\ (createBranchRecord data w).1 !! k = data !! k.
Proof.
  intros Ht Hk.
  assert (Hne : k <> "_id" /\ k <> "_creationTime").
  { table_cases Ht; in_cases Hk; subst k; split; discriminate. }
  destruct Hne as [Hi Hc]. split; [exact Hi |]. split; [exact Hc |].
  split; [now apply createUserRecord_other | now apply createBranchRecord_other].
Qed.

Lemma stamps_spare_declared_fields_witness :
  (createBranchRecord Sample.b1 Sample.world).1 !! "zipCode" = Some (JStr "78701").
Proof.
  rewrite (proj2 (proj2 (proj2
             (stamps_spare_declared_fields "branches" Schema.branches "zipCode"
                Sample.b1 Sample.world ltac:(in_list) ltac:(in_list))))).
  vm_compute. reflexivity.
Defined.

Lemma field_declared (t : Schema.TableDefinition) (k : string) (v : Schema.Validator) :
  Schema.field t k = Some v -> In (k, v) (Schema.fields t).
Proof.
  unfold Schema.field.
  destruct (List.find _ (Schema.fields t)) as [[k' v'] |] eqn:E; [| discriminate].
  cbn. intros [= <-]. apply List.find_some in E as [Hin Hk].
  apply String.eqb_eq in Hk. cbn in Hk. now subst k'.
Qed.

(** X14. The parameter types of the two creation helpers follow the
    schema: [createUserRecord] takes exactly the fields of the users table,
    [createBranchRecord] those of the branches table in the order declared
    there, and a field is optional for the helper exactly when the schema
    declares it with [v.optional]. *)
Theorem helper_parameters_follow_schema :
  (forall k, In k UserData_fields <-> In k (Schema.field_names Schema.users))
  /\ BranchData_fields = Schema.field_names Schema.branches
  /\ (forall k, In k UserData_optional
                <-> exists v, Schema.field Schema.users k = Some (Schema.v_optional v))
  /\ (forall k, In k BranchData_optional
                <-> exists v, Schema.field Schema.branches k = Some (Schema.v_optional v)).
Proof.
  split; [intros k; cbn; intuition congruence |].
  split; [reflexivity |].
  split; intros k; (split; [intros Hk; in_cases Hk; subst k; eexists; reflexivity |]).
  - intros [v Hv]. apply field_declared in Hv.
    in_cases Hv; try discriminate Hv; injection Hv as <- _; in_list.
  - intros [v Hv]. apply field_declared in Hv.
    in_cases Hv; try discriminate Hv; injection Hv as <- _; in_list.
Qed.
